(** * Conduit: the Python shim of the Code Mode SDK

    A shallow embedding of [src/assets/python-shim.py].  The shim holds two
    coroutines, [discover_mcp_tools] and [_internal_call_tool]; each awaits
    one function that the executor injects into the Python globals and then
    unwraps the object the host handed back.

    The file is organised as follows:
    - [Py]: the Python values the shim sees, and the three builtins it uses
      ([hasattr (_, 'to_py')], [isinstance (_, dict)], [dict.get]);
    - [Coro]: a small monad for coroutine bodies (return, raise, host
      operation), with an interpreter against a stateful host that records
      the operations performed;
    - [Shim]: the two functions, line by line;
    - the properties of the shim. *)

From stdpp Require Import base option list strings gmap.
From Stdlib Require Import ZArith.

Local Open Scope Z_scope.

(** ** Python values *)

Module Py.

(** Keys of a Python [dict] as produced by Pyodide's conversion: property
    names of a JS object are strings, keys of a JS [Map] may also be
    numbers or [None]. *)
Inductive key : Type :=
  | KStr (s : string)
  | KInt (z : Z)
  | KNone.

#[global] Instance key_eq_dec : EqDecision key.
Proof. solve_decision. Defined.

Definition key_encode (k : key) : string + (Z + unit) :=
  match k with
  | KStr s => inl s
  | KInt z => inr (inl z)
  | KNone => inr (inr tt)
  end.

Definition key_decode (x : string + (Z + unit)) : key :=
  match x with
  | inl s => KStr s
  | inr (inl z) => KInt z
  | inr (inr _) => KNone
  end.

#[global] Instance key_countable : Countable key.
Proof.
  refine (inj_countable' key_encode key_decode _).
  intros []; reflexivity.
Defined.

(** An exception: the name of its class and its message. *)
Record exn : Type := Exn { exn_class : string; exn_msg : string }.

(** The values that flow through the shim.  [JsProxy h] is a
    [pyodide.ffi.JsProxy] wrapping the JS object with handle [h]; it is the
    only kind of value here that carries a [to_py] attribute. *)
#[warnings="-register-all"] Inductive value : Type :=
  | None_
  | Bool (b : bool)
  | Int (z : Z)
  | Str (s : string)
  | List (l : list value)
  | Dict (d : gmap key value)
  | JsProxy (h : positive).

(** [hasattr(res, 'to_py')] *)
Definition hasattr_to_py (res : value) : bool :=
  match res with
  | JsProxy _ => true
  | _ => false
  end.

(** [isinstance(data, dict)] *)
Definition isinstance_dict (data : value) : bool :=
  match data with
  | Dict _ => true
  | _ => false
  end.

(** [isinstance(v, list)]: the ordered sequences of this value model. *)
Definition isinstance_list (v : value) : bool :=
  match v with
  | List _ => true
  | _ => false
  end.

End Py.

(** ** Coroutine bodies *)

Module Coro.
Import Py.

(** What a coroutine body asks of the host.  The first two are the
    functions injected into the Python global scope by the executor, and
    are awaited; [to_py h] is the synchronous method call [res.to_py()] on
    the proxy with handle [h]. *)
Inductive op : Type :=
  | discover_mcp_tools_js (options : value)
  | call_mcp_tool_js (name arguments : value)
  | to_py (h : positive).

(** The operations behind an [await]: the suspension points. *)
Definition awaited (o : op) : bool :=
  match o with
  | discover_mcp_tools_js _ | call_mcp_tool_js _ _ => true
  | to_py _ => false
  end.

(** How a call ends. *)
Inductive outcome (A : Type) : Type :=
  | Returned (a : A)
  | Raised (e : exn).
Arguments Returned {A} a.
Arguments Raised {A} e.

(** A coroutine body without [try]: it returns, raises, or performs a host
    operation and goes on with the value the operation returned.  An
    operation that raises ends the body: see [run]. *)
Inductive coro (A : Type) : Type :=
  | Return (a : A)
  | Raise (e : exn)
  | Perform (o : op) (k : value -> coro A).
Arguments Return {A} a.
Arguments Raise {A} e.
Arguments Perform {A} o k.

Fixpoint bind {A B : Type} (m : coro A) (f : A -> coro B) : coro B :=
  match m with
  | Return a => f a
  | Raise e => Raise e
  | Perform o k => Perform o (fun v => bind (k v) f)
  end.

#[global] Instance coro_ret : MRet coro := @Return.
#[global] Instance coro_bind : MBind coro := fun A B f m => bind m f.

(** [await f(...)] *)
Definition await (o : op) : coro value := Perform o Return.

(** A host: from its state and an operation, how the operation ends and
    the state after it. *)
Definition host (S : Type) : Type := op -> S -> outcome value * S.

(** The run of a coroutine body against a host. *)
Record ran (S A : Type) : Type := Ran {
  result : outcome A;      (* what the caller gets *)
  final : S;               (* the host state afterwards *)
  trace : list op          (* the host operations performed, in order *)
}.
Arguments Ran {S A} result final trace.
Arguments result {S A} r.
Arguments final {S A} r.
Arguments trace {S A} r.

Fixpoint run {S A : Type} (H : host S) (p : coro A) (st : S) : ran S A :=
  match p with
  | Return a => Ran (Returned a) st []
  | Raise e => Ran (Raised e) st []
  | Perform o k =>
      match H o st with
      | (Returned v, st') =>
          let r := run H (k v) st' in
          Ran (result r) (final r) (o :: trace r)
      | (Raised e, st') => Ran (Raised e) st' [o]
      end
  end.

(** The suspension points of a run. *)
Definition awaits {S A : Type} (r : ran S A) : list op :=
  filter (fun o => awaited o = true) (trace r).

End Coro.

(** ** The shim *)

Module Shim.
Import Py Coro.

Definition AttributeError (msg : string) : exn := Exn "AttributeError" msg.

(** [res.to_py()]: only a proxy has the method. *)
Definition call_to_py (res : value) : coro value :=
  match res with
  | JsProxy h => Perform (to_py h) Return
  | _ => Raise (AttributeError "object has no attribute 'to_py'")
  end.

(** [data.get(k, dflt)]: the method of [dict]; the other values of this
    model have no attribute [get]. *)
Definition call_get (data : value) (k : key) (dflt : value) : coro value :=
  match data with
  | Dict d => Return (default dflt (d !! k))
  | _ => Raise (AttributeError "object has no attribute 'get'")
  end.

(** [async def discover_mcp_tools(options=None)]; [arg] is the positional
    argument of the call, if any. *)
Definition discover_mcp_tools (arg : option value) : coro value :=
  let options := default None_ arg in
  res ← await (discover_mcp_tools_js options);
  if hasattr_to_py res then
    data ← call_to_py res;
    if isinstance_dict data
    then call_get data (KStr "tools") (List [])
    else mret (List [])
  else mret (List []).

(** [async def _internal_call_tool(name, arguments)] *)
Definition _internal_call_tool (name arguments : value) : coro value :=
  res ← await (call_mcp_tool_js name arguments);
  if hasattr_to_py res then
    call_to_py res
  else mret res.

End Shim.

(** ** Sample hosts *)

Module Sample.
Import Py Coro Shim.

(** A host that answers discovery with [disc], a tool call with [tool] and
    every conversion with [conv]; its state counts the operations served. *)
Definition scripted (disc tool conv : outcome value) : host nat :=
  fun o n =>
    match o with
    | discover_mcp_tools_js _ => (disc, S n)
    | call_mcp_tool_js _ _ => (tool, S n)
    | to_py _ => (conv, S n)
    end.

(** A tool call that echoes its arguments back, unconverted. *)
Definition echo : host nat :=
  fun o n =>
    match o with
    | call_mcp_tool_js name arguments => (Returned (List [name; arguments]), S n)
    | _ => (Raised (Exn "JsException" "not available"), S n)
    end.

Definition two_tools : value :=
  Dict {[ KStr "tools" := List [Str "a"; Str "b"] ]}.

Definition tools_is_int : value :=
  Dict {[ KStr "tools" := Int 5 ]}.

Definition no_tools : value :=
  Dict {[ KStr "version" := Int 1 ]}.

Definition gateway_down : exn := Exn "JsException" "gateway unreachable".

End Sample.

(** ** Vocabulary of the statements *)

Module Call.
Import Py Coro Shim.

(** A call of one of the two functions of the shim, with its arguments. *)
Inductive invocation : Type :=
  | Discover (arg : option value)
  | CallTool (name arguments : value).

(** The coroutine body the call runs. *)
Definition body (c : invocation) : coro value :=
  match c with
  | Discover arg => discover_mcp_tools arg
  | CallTool name arguments => _internal_call_tool name arguments
  end.

(** The host function behind the call, applied to the call's arguments. *)
Definition host_call (c : invocation) : op :=
  match c with
  | Discover arg => discover_mcp_tools_js (default None_ arg)
  | CallTool name arguments => call_mcp_tool_js name arguments
  end.

(** Two calls of the same function, whatever their arguments. *)
Definition same_function (c1 c2 : invocation) : bool :=
  match c1, c2 with
  | Discover _, Discover _ => true
  | CallTool _ _, CallTool _ _ => true
  | _, _ => false
  end.

(** [res.to_py()] evaluated by host [H] in state [st]. *)
Definition conversion {S : Type} (H : host S) (res : value) (st : S)
  : outcome value :=
  result (run H (call_to_py res) st).

End Call.

Import Py Coro Shim Call.

(** ** Running coroutine bodies *)

Section Run.
Context {S : Type} (H : host S).

Lemma run_perform {A} (o : op) (k : value -> coro A) (st : S) :
  run H (Perform o k) st =
  match H o st with
  | (Returned v, st') =>
      Ran (result (run H (k v) st')) (final (run H (k v) st'))
          (o :: trace (run H (k v) st'))
  | (Raised e, st') => Ran (Raised e) st' [o]
  end.
Proof. reflexivity. Qed.

(** A body [m ≫= f] runs [m] and, if [m] returned, [f] on what it
    returned; what [m] raised is what the whole raises. *)
Lemma run_bind {A B} (m : coro A) (f : A -> coro B) (st : S) :
  run H (m ≫= f) st =
  let r := run H m st in
  match result r with
  | Returned a =>
      let r' := run H (f a) (final r) in
      Ran (result r') (final r') (trace r ++ trace r')
  | Raised e => Ran (Raised e) (final r) (trace r)
  end.
Proof.
  revert st. induction m as [a|e|o k IH]; intros st.
  - simpl. destruct (run H (f a) st); reflexivity.
  - reflexivity.
  - change (Perform o k ≫= f) with (Perform o (fun v => k v ≫= f)).
    rewrite !run_perform.
    destruct (H o st) as [[v|e] st']; [|reflexivity].
    rewrite IH. simpl.
    destruct (result (run H (k v) st')); reflexivity.
Qed.

Lemma run_await (o : op) (st : S) :
  run H (await o) st =
  match H o st with
  | (Returned v, st') => Ran (Returned v) st' [o]
  | (Raised e, st') => Ran (Raised e) st' [o]
  end.
Proof. unfold await. rewrite run_perform. destruct (H o st) as [[]]; reflexivity. Qed.

(** The conversion of a value without [to_py] is an [AttributeError]; that
    of a proxy is what the host answers. *)
Lemma conversion_proxy (h : positive) (st : S) :
  conversion H (JsProxy h) st = fst (H (to_py h) st).
Proof.
  unfold conversion. simpl. destruct (H (to_py h) st) as [[]]; reflexivity.
Qed.

Lemma hasattr_to_py_proxy (res : value) :
  hasattr_to_py res = true -> exists h, res = JsProxy h.
Proof. destruct res; try discriminate. eauto. Qed.

End Run.

(** ** The runs of the two functions *)

Section Shim_runs.
Context {S : Type} (H : host S).

(** What [data.get('tools', []) if isinstance(data, dict) else []]
    evaluates to. *)
Lemma tools_of_converted (data : value) (st : S) :
  run H (if isinstance_dict data
         then call_get data (KStr "tools") (List [])
         else mret (List [])) st =
  Ran (Returned match data with
                | Dict d => default (List []) (d !! KStr "tools")
                | _ => List []
                end) st [].
Proof. destruct data; reflexivity. Qed.

(** Every run of [discover_mcp_tools], by what the host answers. *)
Lemma run_discover (arg : option value) (st : S) :
  run H (discover_mcp_tools arg) st =
  let o := discover_mcp_tools_js (default None_ arg) in
  match H o st with
  | (Raised e, st1) => Ran (Raised e) st1 [o]
  | (Returned (JsProxy h), st1) =>
      match H (to_py h) st1 with
      | (Raised e, st2) => Ran (Raised e) st2 [o; to_py h]
      | (Returned data, st2) =>
          Ran (Returned match data with
                        | Dict d => default (List []) (d !! KStr "tools")
                        | _ => List []
                        end) st2 [o; to_py h]
      end
  | (Returned _, st1) => Ran (Returned (List [])) st1 [o]
  end.
Proof.
  unfold discover_mcp_tools. rewrite run_bind, run_await. cbv zeta.
  destruct (H _ st) as [[res|e] st1]; [|reflexivity].
  cbn [result final trace].
  destruct res as [| | | | | |h]; try reflexivity.
  cbn [hasattr_to_py]. rewrite run_bind. cbn [call_to_py].
  rewrite run_perform.
  destruct (H (to_py h) st1) as [[data|e] st2]; [|reflexivity].
  cbn [result final trace run]. rewrite tools_of_converted. reflexivity.
Qed.

(** Every run of [_internal_call_tool], by what the host answers. *)
Lemma run_call_tool (name arguments : value) (st : S) :
  run H (_internal_call_tool name arguments) st =
  let o := call_mcp_tool_js name arguments in
  match H o st with
  | (Raised e, st1) => Ran (Raised e) st1 [o]
  | (Returned (JsProxy h), st1) =>
      match H (to_py h) st1 with
      | (Raised e, st2) => Ran (Raised e) st2 [o; to_py h]
      | (Returned data, st2) => Ran (Returned data) st2 [o; to_py h]
      end
  | (Returned res, st1) => Ran (Returned res) st1 [o]
  end.
Proof.
  unfold _internal_call_tool. rewrite run_bind, run_await. cbv zeta.
  destruct (H _ st) as [[res|e] st1]; [|reflexivity].
  cbn [result final trace].
  destruct res as [| | | | | |h]; try reflexivity.
  cbn [hasattr_to_py call_to_py]. rewrite run_perform.
  destruct (H (to_py h) st1) as [[data|e] st2]; reflexivity.
Qed.

(** Without their guards the two method calls do raise. *)
Lemma call_get_not_dict (data : value) (k : key) (dflt : value) (st : S) :
  isinstance_dict data = false ->
  exists msg, result (run H (call_get data k dflt) st) =
              Raised (AttributeError msg).
Proof. destruct data; try discriminate; intros _; eexists; reflexivity. Qed.

Lemma call_to_py_not_proxy (res : value) (st : S) :
  hasattr_to_py res = false ->
  exists msg, conversion H res st = Raised (AttributeError msg).
Proof. destruct res; try discriminate; intros _; eexists; reflexivity. Qed.

End Shim_runs.

(** ** The scenarios of the specification *)

Example scenario_two_tools :
  result (run (Sample.scripted (Returned (JsProxy 1)) (Returned None_)
                 (Returned Sample.two_tools))
            (discover_mcp_tools None) 0%nat) =
  Returned (List [Str "a"; Str "b"]).
Proof. vm_compute. reflexivity. Qed.

Example scenario_empty_dict :
  result (run (Sample.scripted (Returned (JsProxy 1)) (Returned None_)
                 (Returned (Dict ∅)))
            (discover_mcp_tools None) 0%nat) =
  Returned (List []).
Proof. vm_compute. reflexivity. Qed.

Example scenario_plain_integer :
  result (run (Sample.scripted (Returned (Int 7)) (Returned None_)
                 (Returned None_))
            (discover_mcp_tools None) 0%nat) =
  Returned (List []).
Proof. reflexivity. Qed.

Example scenario_plain_string :
  result (run (Sample.scripted (Returned None_) (Returned (Str "hello"))
                 (Returned None_))
            (_internal_call_tool (Str "x") (Dict ∅)) 0%nat) =
  Returned (Str "hello").
Proof. reflexivity. Qed.

Example scenario_echo :
  run Sample.echo (_internal_call_tool (Str "x") (Int 1)) 0%nat =
  Ran (Returned (List [Str "x"; Int 1])) 1%nat
      [call_mcp_tool_js (Str "x") (Int 1)].
Proof. reflexivity. Qed.

(** ** Properties of the shim *)

Section Properties.
Context {S : Type} (H : host S).

(** C1. When the host's discovery result has [to_py] and converts to a
    dict whose key ["tools"] is bound to the list [ts], then
    [discover_mcp_tools] returns the list [ts] itself: same elements, same
    order. *)
Theorem discover_returns_tools_in_order
    (arg : option value) (st st1 : S) (res : value)
    (d : gmap key value) (ts : list value) :
  H (discover_mcp_tools_js (default None_ arg)) st = (Returned res, st1) ->
  hasattr_to_py res = true ->
  conversion H res st1 = Returned (Dict d) ->
  d !! KStr "tools" = Some (List ts) ->
  result (run H (discover_mcp_tools arg) st) = Returned (List ts).
Proof.
  intros Hres [h ->]%hasattr_to_py_proxy Hconv Htools.
  rewrite conversion_proxy in Hconv.
  rewrite run_discover. cbv zeta. rewrite Hres.
  destruct (H (to_py h) st1) as [c st2]. simpl in Hconv. subst c.
  cbn [result]. rewrite Htools. reflexivity.
Qed.

(** C2. When the host's invocation result has [to_py], then
    [_internal_call_tool] returns the value the conversion produced, of
    whatever shape. *)
Theorem call_tool_returns_converted
    (name arguments : value) (st st1 : S) (res v : value) :
  H (call_mcp_tool_js name arguments) st = (Returned res, st1) ->
  hasattr_to_py res = true ->
  conversion H res st1 = Returned v ->
  result (run H (_internal_call_tool name arguments) st) = Returned v.
Proof.
  intros Hres [h ->]%hasattr_to_py_proxy Hconv.
  rewrite conversion_proxy in Hconv.
  rewrite run_call_tool. cbv zeta. rewrite Hres.
  destruct (H (to_py h) st1) as [c st2]. simpl in Hconv. subst c.
  reflexivity.
Qed.

(** C3. When the host's discovery result (i) has no [to_py], or (ii)
    converts to a value that is not a dict, or (iii) converts to a dict
    without the key ["tools"], then [discover_mcp_tools] returns the empty
    list, whatever the raw result holds. *)
Theorem discover_defaults_to_empty
    (arg : option value) (st st1 : S) (res : value) :
  H (discover_mcp_tools_js (default None_ arg)) st = (Returned res, st1) ->
  hasattr_to_py res = false
  \/ (exists data, conversion H res st1 = Returned data
                   /\ isinstance_dict data = false)
  \/ (exists d, conversion H res st1 = Returned (Dict d)
                /\ d !! KStr "tools" = None) ->
  result (run H (discover_mcp_tools arg) st) = Returned (List []).
Proof.
  intros Hres Hcase. rewrite run_discover. cbv zeta. rewrite Hres.
  destruct res as [| | | | | |h];
    try reflexivity;
    try (destruct Hcase as [Hc|[(data & Hc & _)|(d & Hc & _)]];
         discriminate Hc).
  rewrite conversion_proxy in Hcase.
  destruct (H (to_py h) st1) as [c st2]. simpl in Hcase.
  destruct Hcase as [Hc|[(data & -> & Hnd)|(d & -> & Hnone)]].
  - discriminate Hc.
  - destruct data; try reflexivity. discriminate Hnd.
  - cbn [result]. rewrite Hnone. reflexivity.
Qed.

(** C4. When the host's invocation result has no [to_py], then
    [_internal_call_tool] returns that very result, and asks nothing more
    of the host. *)
Theorem call_tool_passthrough
    (name arguments : value) (st st1 : S) (res : value) :
  H (call_mcp_tool_js name arguments) st = (Returned res, st1) ->
  hasattr_to_py res = false ->
  run H (_internal_call_tool name arguments) st =
  Ran (Returned res) st1 [call_mcp_tool_js name arguments].
Proof.
  intros Hres Hno. rewrite run_call_tool. cbv zeta. rewrite Hres.
  destruct res; try reflexivity. discriminate Hno.
Qed.

(** C5. For either function: when the awaited host call raises [e], the
    call of the function raises that same [e]; nothing is returned, and
    nothing else is asked of the host. *)
Theorem host_errors_propagate
    (c : invocation) (st st1 : S) (e : exn) :
  H (host_call c) st = (Raised e, st1) ->
  run H (body c) st = Ran (Raised e) st1 [host_call c]
  /\ forall v, result (run H (body c) st) <> Returned v.
Proof.
  intros Hraise.
  assert (run H (body c) st = Ran (Raised e) st1 [host_call c]) as ->.
  { destruct c as [arg|name arguments]; cbn [body host_call] in *.
    - rewrite run_discover. cbv zeta. rewrite Hraise. reflexivity.
    - rewrite run_call_tool. cbv zeta. rewrite Hraise. reflexivity. }
  split; [reflexivity|]. intros v. discriminate.
Qed.

(** C6, as amended. Whenever [discover_mcp_tools] returns, it returns a
    list, except when the converted host result is a dict whose key
    ["tools"] is bound to a value that is not a list: then it returns that
    value as it is.  Both directions: what is returned is a list or such an
    entry, and whatever the dict binds to ["tools"], list or not, is what
    is returned. *)
Theorem discover_sequence_unless_tools_malformed
    (arg : option value) (st : S) :
  (forall v,
     result (run H (discover_mcp_tools arg) st) = Returned v ->
     isinstance_list v = true
     \/ exists res st1 d,
          H (discover_mcp_tools_js (default None_ arg)) st = (Returned res, st1)
          /\ hasattr_to_py res = true
          /\ conversion H res st1 = Returned (Dict d)
          /\ d !! KStr "tools" = Some v
          /\ isinstance_list v = false)
  /\ (forall res st1 d x,
        H (discover_mcp_tools_js (default None_ arg)) st = (Returned res, st1) ->
        hasattr_to_py res = true ->
        conversion H res st1 = Returned (Dict d) ->
        d !! KStr "tools" = Some x ->
        result (run H (discover_mcp_tools arg) st) = Returned x).
Proof.
  split.
  - intros v. rewrite run_discover. cbv zeta.
    destruct (H _ st) as [[res|e] st1] eqn:Hres; [|discriminate].
    destruct res as [| | | | | |h];
      try (intros [= <-]; left; reflexivity).
    destruct (H (to_py h) st1) as [[data|e] st2] eqn:Hconv; [|discriminate].
    intros [= <-].
    destruct data as [| | | | |d|]; try (left; reflexivity).
    destruct (d !! KStr "tools") as [x|] eqn:Htools; [|left; reflexivity].
    change (default (List []) (Some x)) with x.
    destruct (isinstance_list x) eqn:Hx; [left; reflexivity|].
    right. exists (JsProxy h), st1, d.
    rewrite conversion_proxy, Hconv. auto.
  - intros res st1 d x Hres [h ->]%hasattr_to_py_proxy Hconv Htools.
    rewrite conversion_proxy in Hconv.
    rewrite run_discover. cbv zeta. rewrite Hres.
    destruct (H (to_py h) st1) as [c st2]. simpl in Hconv. subst c.
    cbn [result]. rewrite Htools. reflexivity.
Qed.

(** C7. [discover_mcp_tools] raises nothing of its own: when the awaited
    host call returns and the conversion, if there is one, returns, the
    function returns.  In particular [get] is only called on a dict. *)
Theorem discover_total_after_host_call
    (arg : option value) (st st1 : S) (res : value) :
  H (discover_mcp_tools_js (default None_ arg)) st = (Returned res, st1) ->
  (hasattr_to_py res = true ->
   exists data, conversion H res st1 = Returned data) ->
  exists v, result (run H (discover_mcp_tools arg) st) = Returned v.
Proof.
  intros Hres Hconv. rewrite run_discover. cbv zeta. rewrite Hres.
  destruct res as [| | | | | |h]; try (eexists; reflexivity).
  destruct (Hconv eq_refl) as [data Hdata].
  rewrite conversion_proxy in Hdata.
  destruct (H (to_py h) st1) as [c st2]. simpl in Hdata. subst c.
  eexists; reflexivity.
Qed.

(** C8. The arguments reach the host as they are, and the shim does
    nothing else with them.  Each function is the host call on exactly the
    values it was given ([None] when [options] is omitted), followed by a
    continuation that is the same for all arguments: so no argument is
    looked into, refused or changed, before the host call or after it.
    In terms of runs: the first operation of every run is that call, and
    two calls of the same function whose host calls are answered alike end
    alike, in the same host state and after the same further operations,
    whatever their arguments. *)
Theorem inputs_forwarded_unmodified :
  (exists k, forall arg,
     discover_mcp_tools arg =
     Perform (discover_mcp_tools_js (default None_ arg)) k)
  /\ (exists k, forall name arguments,
        _internal_call_tool name arguments =
        Perform (call_mcp_tool_js name arguments) k)
  /\ (forall arg st,
        head (trace (run H (discover_mcp_tools arg) st)) =
        Some (discover_mcp_tools_js (default None_ arg)))
  /\ (forall name arguments st,
        head (trace (run H (_internal_call_tool name arguments) st)) =
        Some (call_mcp_tool_js name arguments))
  /\ (forall c1 c2 st1 st2,
        same_function c1 c2 = true ->
        H (host_call c1) st1 = H (host_call c2) st2 ->
        result (run H (body c1) st1) = result (run H (body c2) st2)
        /\ final (run H (body c1) st1) = final (run H (body c2) st2)
        /\ tail (trace (run H (body c1) st1)) =
           tail (trace (run H (body c2) st2))).
Proof.
  split; [eexists; intros arg; reflexivity|].
  split; [eexists; intros name arguments; reflexivity|].
  split; [|split].
  - intros arg st. rewrite run_discover. cbv zeta.
    destruct (H _ st) as [[res|e] st1]; [|reflexivity].
    destruct res as [| | | | | |h]; try reflexivity.
    destruct (H (to_py h) st1) as [[]]; reflexivity.
  - intros name arguments st. rewrite run_call_tool. cbv zeta.
    destruct (H _ st) as [[res|e] st1]; [|reflexivity].
    destruct res as [| | | | | |h]; try reflexivity.
    destruct (H (to_py h) st1) as [[]]; reflexivity.
  - intros c1 c2 st1 st2 Hsame Hans.
    destruct c1 as [arg1|n1 a1], c2 as [arg2|n2 a2]; try discriminate Hsame;
      cbn [body host_call] in *.
    + rewrite !run_discover. cbv zeta. rewrite Hans.
      destruct (H _ st2) as [[res|e] st']; [|auto].
      destruct res as [| | | | | |h]; auto.
      destruct (H (to_py h) st') as [[]]; auto.
    + rewrite !run_call_tool. cbv zeta. rewrite Hans.
      destruct (H _ st2) as [[res|e] st']; [|auto].
      destruct res as [| | | | | |h]; auto.
      destruct (H (to_py h) st') as [[]]; auto.
Qed.

(** C9. Every call of [discover_mcp_tools] awaits the host discovery
    function once, and every call of [_internal_call_tool] awaits the host
    invocation function once; neither awaits anything else. *)
Theorem exactly_one_awaited_host_call
    (arg : option value) (name arguments : value) (st : S) :
  awaits (run H (discover_mcp_tools arg) st) =
    [discover_mcp_tools_js (default None_ arg)]
  /\ awaits (run H (_internal_call_tool name arguments) st) =
    [call_mcp_tool_js name arguments].
Proof.
  unfold awaits. split.
  - rewrite run_discover. cbv zeta.
    destruct (H _ st) as [[res|e] st1]; [|reflexivity].
    destruct res as [| | | | | |h]; try reflexivity.
    destruct (H (to_py h) st1) as [[]]; reflexivity.
  - rewrite run_call_tool. cbv zeta.
    destruct (H _ st) as [[res|e] st1]; [|reflexivity].
    destruct res as [| | | | | |h]; try reflexivity.
    destruct (H (to_py h) st1) as [[]]; reflexivity.
Qed.

End Properties.

Section Determinism.
Context {S1 S2 : Type} (H1 : host S1) (H2 : host S2).

(** C10. Take two calls of the same function, on any two hosts, in any
    two states and with any arguments.  When the awaited host call returns
    the same value [res] in both and, if [res] has [to_py], the conversion
    ends the same way in both, the two calls end the same way. *)
Theorem output_determined_by_host_result
    (c1 c2 : invocation) (st1 : S1) (st2 : S2)
    (res : value) (st1' : S1) (st2' : S2) :
  same_function c1 c2 = true ->
  H1 (host_call c1) st1 = (Returned res, st1') ->
  H2 (host_call c2) st2 = (Returned res, st2') ->
  (hasattr_to_py res = true ->
   conversion H1 res st1' = conversion H2 res st2') ->
  result (run H1 (body c1) st1) = result (run H2 (body c2) st2).
Proof.
  intros Hsame Hres1 Hres2 Hconv.
  destruct c1 as [arg1|n1 a1], c2 as [arg2|n2 a2]; try discriminate Hsame;
    cbn [body host_call] in *.
  - rewrite !run_discover. cbv zeta. rewrite Hres1, Hres2.
    destruct res as [| | | | | |h]; try reflexivity.
    specialize (Hconv eq_refl). rewrite !conversion_proxy in Hconv.
    destruct (H1 (to_py h) st1') as [o1 ?], (H2 (to_py h) st2') as [o2 ?].
    simpl in Hconv. subst o2. destruct o1; reflexivity.
  - rewrite !run_call_tool. cbv zeta. rewrite Hres1, Hres2.
    destruct res as [| | | | | |h]; try reflexivity.
    specialize (Hconv eq_refl). rewrite !conversion_proxy in Hconv.
    destruct (H1 (to_py h) st1') as [o1 ?], (H2 (to_py h) st2') as [o2 ?].
    simpl in Hconv. subst o2. destruct o1; reflexivity.
Qed.

End Determinism.

(** ** The properties at sample hosts *)

(** Discovery resolves to a proxy whose [to_py()] is
    [{"tools": ["a", "b"]}]: the call returns [["a", "b"]]. *)
Lemma discover_returns_tools_in_order_witness :
  let H := Sample.scripted (Returned (JsProxy 1)) (Returned None_)
                           (Returned Sample.two_tools) in
  Sample.two_tools = Dict {[ KStr "tools" := List [Str "a"; Str "b"] ]}
  /\ result (run H (discover_mcp_tools None) 0%nat) =
     Returned (List [Str "a"; Str "b"]).
Proof.
  intros H. split; [reflexivity|].
  apply (discover_returns_tools_in_order H None 0%nat 1%nat (JsProxy 1)
           {[ KStr "tools" := List [Str "a"; Str "b"] ]}).
  - reflexivity.
  - reflexivity.
  - reflexivity.
  - vm_compute. reflexivity.
Defined.

(** The tool call resolves to a proxy whose [to_py()] is the string
    ["done"]: the call returns ["done"]. *)
Lemma call_tool_returns_converted_witness :
  let H := Sample.scripted (Returned None_) (Returned (JsProxy 7))
                           (Returned (Str "done")) in
  result (run H (_internal_call_tool (Str "x") (Dict ∅)) 0%nat) =
  Returned (Str "done").
Proof.
  intros H.
  apply (call_tool_returns_converted H (Str "x") (Dict ∅) 0%nat 1%nat
           (JsProxy 7)); reflexivity.
Defined.

(** Discovery resolves (i) to a plain dict that does hold tools but has no
    [to_py], (ii) to a proxy of a list, (iii) to a proxy of a dict without
    ["tools"]: the call returns [[]] each time. *)
Lemma discover_defaults_to_empty_witness :
  let plain := Sample.scripted (Returned Sample.two_tools) (Returned None_)
                               (Returned None_) in
  let of_list := Sample.scripted (Returned (JsProxy 1)) (Returned None_)
                                 (Returned (List [Str "a"])) in
  let of_dict := Sample.scripted (Returned (JsProxy 1)) (Returned None_)
                                 (Returned Sample.no_tools) in
  result (run plain (discover_mcp_tools None) 0%nat) = Returned (List [])
  /\ result (run of_list (discover_mcp_tools None) 0%nat) = Returned (List [])
  /\ result (run of_dict (discover_mcp_tools (Some (Int 3))) 0%nat) =
     Returned (List []).
Proof.
  intros plain of_list of_dict. split; [|split].
  - apply (discover_defaults_to_empty plain None 0%nat 1%nat Sample.two_tools).
    + reflexivity.
    + left. reflexivity.
  - apply (discover_defaults_to_empty of_list None 0%nat 1%nat (JsProxy 1)).
    + reflexivity.
    + right. left. exists (List [Str "a"]). split; reflexivity.
  - apply (discover_defaults_to_empty of_dict (Some (Int 3)) 0%nat 1%nat
             (JsProxy 1)).
    + reflexivity.
    + right. right. exists {[ KStr "version" := Int 1 ]}.
      split; [reflexivity|vm_compute; reflexivity].
Defined.

(** The tool call resolves to a plain string: the call returns it. *)
Lemma call_tool_passthrough_witness :
  let H := Sample.scripted (Returned None_) (Returned (Str "plain"))
                           (Returned None_) in
  run H (_internal_call_tool (Str "x") (Dict ∅)) 0%nat =
  Ran (Returned (Str "plain")) 1%nat [call_mcp_tool_js (Str "x") (Dict ∅)].
Proof.
  intros H.
  apply (call_tool_passthrough H (Str "x") (Dict ∅) 0%nat 1%nat (Str "plain"));
    reflexivity.
Defined.

(** The gateway is down: both functions raise what the host raised. *)
Lemma host_errors_propagate_witness :
  let H := Sample.scripted (Raised Sample.gateway_down)
                           (Raised Sample.gateway_down) (Returned None_) in
  result (run H (discover_mcp_tools None) 0%nat) = Raised Sample.gateway_down
  /\ result (run H (_internal_call_tool (Str "x") None_) 0%nat) =
     Raised Sample.gateway_down.
Proof.
  intros H. split.
  - refine (f_equal result
              (proj1 (host_errors_propagate H (Discover None) 0%nat 1%nat
                        Sample.gateway_down _))).
    reflexivity.
  - refine (f_equal result
              (proj1 (host_errors_propagate H (CallTool (Str "x") None_)
                        0%nat 1%nat Sample.gateway_down _))).
    reflexivity.
Defined.

(** C6, as stated, fails.  Discovery resolves to a proxy whose [to_py()]
    is [{"tools": 5}]: the call returns [5], which is no sequence. *)
Lemma discover_result_not_always_sequence :
  let H := Sample.scripted (Returned (JsProxy 1)) (Returned None_)
                           (Returned Sample.tools_is_int) in
  result (run H (discover_mcp_tools None) 0%nat) = Returned (Int 5)
  /\ isinstance_list (Int 5) = false.
Proof. split; vm_compute; reflexivity. Qed.

(** The amended C6 at [{"tools": 5}]: the entry [5] is what is returned. *)
Lemma discover_sequence_unless_tools_malformed_witness :
  let H := Sample.scripted (Returned (JsProxy 1)) (Returned None_)
                           (Returned Sample.tools_is_int) in
  result (run H (discover_mcp_tools None) 0%nat) = Returned (Int 5)
  /\ (isinstance_list (Int 5) = true
      \/ exists res st1 d,
           H (discover_mcp_tools_js None_) 0%nat = (Returned res, st1)
           /\ hasattr_to_py res = true
           /\ conversion H res st1 = Returned (Dict d)
           /\ d !! KStr "tools" = Some (Int 5)
           /\ isinstance_list (Int 5) = false).
Proof.
  intros H.
  assert (result (run H (discover_mcp_tools None) 0%nat) = Returned (Int 5))
    as Hrun.
  { apply (proj2 (discover_sequence_unless_tools_malformed H None 0%nat)
             (JsProxy 1) 1%nat {[ KStr "tools" := Int 5 ]} (Int 5)).
    - reflexivity.
    - reflexivity.
    - reflexivity.
    - vm_compute. reflexivity. }
  split; [exact Hrun|].
  exact (proj1 (discover_sequence_unless_tools_malformed H None 0%nat)
           (Int 5) Hrun).
Defined.

(** Discovery resolves to a proxy of a list: the call returns. *)
Lemma discover_total_after_host_call_witness :
  let H := Sample.scripted (Returned (JsProxy 1)) (Returned None_)
                           (Returned (List [Str "a"])) in
  exists v, result (run H (discover_mcp_tools None) 0%nat) = Returned v.
Proof.
  intros H.
  apply (discover_total_after_host_call H None 0%nat 1%nat (JsProxy 1)).
  - reflexivity.
  - intros _. exists (List [Str "a"]). reflexivity.
Defined.

(** A well-formed and an ill-formed tool call ([name] a number,
    [arguments] a string), answered alike by the host: the same run. *)
Lemma inputs_forwarded_unmodified_witness :
  let H := Sample.scripted (Returned None_) (Returned (JsProxy 2))
                           (Returned (Int 42)) in
  let good := CallTool (Str "add") (Dict ∅) in
  let bad := CallTool (Int 7) (Str "not a dict") in
  result (run H (body good) 0%nat) = result (run H (body bad) 0%nat)
  /\ final (run H (body good) 0%nat) = final (run H (body bad) 0%nat)
  /\ tail (trace (run H (body good) 0%nat)) =
     tail (trace (run H (body bad) 0%nat)).
Proof.
  intros H good bad.
  apply (proj2 (proj2 (proj2 (proj2 (inputs_forwarded_unmodified H))))
           good bad 0%nat 0%nat); reflexivity.
Defined.

(** Two tool calls with different names and arguments, on hosts in
    different states, both resolving to the same proxy with the same
    conversion: the same outcome. *)
Lemma output_determined_by_host_result_witness :
  let H := Sample.scripted (Returned None_) (Returned (JsProxy 2))
                           (Returned (Int 42)) in
  result (run H (_internal_call_tool (Str "add") (List [Int 40; Int 2])) 0%nat)
  = result (run H (_internal_call_tool (Str "answer") None_) 5%nat).
Proof.
  intros H.
  apply (output_determined_by_host_result H H
           (CallTool (Str "add") (List [Int 40; Int 2]))
           (CallTool (Str "answer") None_)
           0%nat 5%nat (JsProxy 2) 1%nat 6%nat); reflexivity.
Defined.

(** ** Further properties: conversions, operations performed, errors *)

Section Further.
Context {S : Type} (H : host S).

(** For either function: when the host call returns a value with [to_py]
    and its [to_py()] raises [e], the function raises that same [e], after
    exactly the host call and the one conversion. *)
Theorem conversion_errors_propagate
    (c : invocation) (st st1 st2 : S) (h : positive) (e : exn) :
  H (host_call c) st = (Returned (JsProxy h), st1) ->
  H (to_py h) st1 = (Raised e, st2) ->
  run H (body c) st = Ran (Raised e) st2 [host_call c; to_py h].
Proof.
  intros Hres Hconv.
  destruct c as [arg|name arguments]; cbn [body host_call] in *.
  - rewrite run_discover. cbv zeta. rewrite Hres, Hconv. reflexivity.
  - rewrite run_call_tool. cbv zeta. rewrite Hres, Hconv. reflexivity.
Qed.

(** For either function, the host operations of a call are the host call
    and then, only when that call returned a proxy, one [to_py()] on that
    very proxy.  So a result without [to_py] is never converted, what a
    conversion returns is never converted again, and neither function ever
    calls the host function of the other. *)
Theorem operations_performed (c : invocation) (st : S) :
  trace (run H (body c) st) =
  host_call c ::
  match fst (H (host_call c) st) with
  | Returned (JsProxy h) => [to_py h]
  | _ => []
  end.
Proof.
  destruct c as [arg|name arguments]; cbn [body host_call].
  - rewrite run_discover. cbv zeta.
    destruct (H _ st) as [[res|e] st1]; [|reflexivity].
    destruct res as [| | | | | |h]; try reflexivity.
    cbn [fst]. destruct (H (to_py h) st1) as [[]]; reflexivity.
  - rewrite run_call_tool. cbv zeta.
    destruct (H _ st) as [[res|e] st1]; [|reflexivity].
    destruct res as [| | | | | |h]; try reflexivity.
    cbn [fst]. destruct (H (to_py h) st1) as [[]]; reflexivity.
Qed.

(** Neither function raises an error of its own: whatever a call raises
    was raised by the awaited host call or by the conversion of its
    result. *)
Theorem errors_come_from_host
    (c : invocation) (st : S) (e : exn) :
  result (run H (body c) st) = Raised e ->
  (exists st1, H (host_call c) st = (Raised e, st1))
  \/ (exists h st1 st2,
        H (host_call c) st = (Returned (JsProxy h), st1)
        /\ H (to_py h) st1 = (Raised e, st2)).
Proof.
  destruct c as [arg|name arguments]; cbn [body host_call].
  - rewrite run_discover. cbv zeta.
    destruct (H _ st) as [[res|e'] st1] eqn:Hres.
    + destruct res as [| | | | | |h]; try discriminate.
      destruct (H (to_py h) st1) as [[data|e'] st2] eqn:Hconv;
        [discriminate|].
      intros [= ->]. right. exists h, st1, st2. rewrite Hconv. auto.
    + intros [= ->]. left. eauto.
  - rewrite run_call_tool. cbv zeta.
    destruct (H _ st) as [[res|e'] st1] eqn:Hres.
    + destruct res as [| | | | | |h]; try discriminate.
      destruct (H (to_py h) st1) as [[data|e'] st2] eqn:Hconv;
        [discriminate|].
      intros [= ->]. right. exists h, st1, st2. rewrite Hconv. auto.
    + intros [= ->]. left. eauto.
Qed.

(** [discover_mcp_tools] returns the empty list in these cases and no
    other: the host result has no [to_py], or it converts to a value that
    is not a dict, or to a dict without ["tools"], or to a dict whose
    ["tools"] is the empty list.  The caller cannot tell them apart. *)
Theorem discover_empty_iff (arg : option value) (st : S) :
  result (run H (discover_mcp_tools arg) st) = Returned (List [])
  <->
  exists res st1,
    H (discover_mcp_tools_js (default None_ arg)) st = (Returned res, st1)
    /\ (hasattr_to_py res = false
        \/ exists data,
             conversion H res st1 = Returned data
             /\ (isinstance_dict data = false
                 \/ exists d, data = Dict d
                      /\ (d !! KStr "tools" = None
                          \/ d !! KStr "tools" = Some (List [])))).
Proof.
  rewrite run_discover. cbv zeta.
  destruct (H _ st) as [[res|e] st1] eqn:Hres.
  2:{ split; [discriminate|]. intros (res & st1' & Heq & _). discriminate. }
  split.
  - intros Hrun. exists res, st1. split; [reflexivity|].
    destruct res as [| | | | | |h]; try (left; reflexivity).
    right. rewrite conversion_proxy.
    destruct (H (to_py h) st1) as [[data|e] st2]; [|discriminate].
    exists data. split; [reflexivity|].
    destruct data as [| | | | |d|]; try (left; reflexivity).
    right. exists d. split; [reflexivity|].
    cbn [result] in Hrun.
    destruct (d !! KStr "tools") as [x|]; [|left; reflexivity].
    right. injection Hrun as ->. reflexivity.
  - intros (res' & st1' & [= <- <-] & Hcase).
    destruct res as [| | | | | |h]; try reflexivity.
    destruct Hcase as [Hno|(data & Hconv & Hdata)]; [discriminate Hno|].
    rewrite conversion_proxy in Hconv.
    destruct (H (to_py h) st1) as [c st2]. simpl in Hconv. subst c.
    cbn [result].
    destruct Hdata as [Hnd|(d & -> & [Hk|Hk])].
    + destruct data; try reflexivity. discriminate Hnd.
    + rewrite Hk. reflexivity.
    + rewrite Hk. reflexivity.
Qed.

End Further.

Section Other_keys.
Context {S1 S2 : Type} (H1 : host S1) (H2 : host S2).

(** Only the key ["tools"] of the converted dict counts: setting any other
    key of the dict, new or already there, to any value leaves what
    [discover_mcp_tools] returns unchanged. *)
Theorem discover_ignores_other_keys
    (arg1 arg2 : option value) (st1 st1' : S1) (st2 st2' : S2)
    (res1 res2 : value) (d : gmap key value) (k : key) (x : value) :
  k <> KStr "tools" ->
  H1 (discover_mcp_tools_js (default None_ arg1)) st1 = (Returned res1, st1') ->
  conversion H1 res1 st1' = Returned (Dict d) ->
  H2 (discover_mcp_tools_js (default None_ arg2)) st2 = (Returned res2, st2') ->
  conversion H2 res2 st2' = Returned (Dict (<[k := x]> d)) ->
  result (run H1 (discover_mcp_tools arg1) st1) =
  result (run H2 (discover_mcp_tools arg2) st2).
Proof.
  intros Hk Hres1 Hconv1 Hres2 Hconv2.
  rewrite !run_discover. cbv zeta. rewrite Hres1, Hres2.
  destruct res1 as [| | | | | |h1]; try discriminate Hconv1.
  destruct res2 as [| | | | | |h2]; try discriminate Hconv2.
  rewrite conversion_proxy in Hconv1. rewrite conversion_proxy in Hconv2.
  destruct (H1 (to_py h1) st1') as [c1 ?], (H2 (to_py h2) st2') as [c2 ?].
  simpl in Hconv1, Hconv2. subst c1 c2. cbn [result].
  rewrite lookup_insert_ne by exact Hk. reflexivity.
Qed.

End Other_keys.

(** ** The further properties at sample hosts *)

(** The proxy cannot be converted: both functions raise what [to_py()]
    raised. *)
Lemma conversion_errors_propagate_witness :
  let boom := Exn "ConversionError" "cannot convert" in
  let H := Sample.scripted (Returned (JsProxy 3)) (Returned (JsProxy 3))
                           (Raised boom) in
  run H (discover_mcp_tools None) 0%nat =
    Ran (Raised boom) 2%nat [discover_mcp_tools_js None_; to_py 3]
  /\ run H (_internal_call_tool (Str "x") None_) 0%nat =
    Ran (Raised boom) 2%nat [call_mcp_tool_js (Str "x") None_; to_py 3].
Proof.
  intros boom H. split.
  - apply (conversion_errors_propagate H (Discover None) 0%nat 1%nat 2%nat
             3%positive boom); reflexivity.
  - apply (conversion_errors_propagate H (CallTool (Str "x") None_)
             0%nat 1%nat 2%nat 3%positive boom); reflexivity.
Defined.

(** The gateway is down: the error of the call is the host's. *)
Lemma errors_come_from_host_witness :
  let H := Sample.scripted (Raised Sample.gateway_down) (Returned None_)
                           (Returned None_) in
  (exists st1, H (discover_mcp_tools_js (Int 3)) 0%nat =
               (Raised Sample.gateway_down, st1))
  \/ (exists h st1 st2,
        H (discover_mcp_tools_js (Int 3)) 0%nat = (Returned (JsProxy h), st1)
        /\ H (to_py h) st1 = (Raised Sample.gateway_down, st2)).
Proof.
  intros H.
  apply (errors_come_from_host H (Discover (Some (Int 3))) 0%nat
           Sample.gateway_down).
  reflexivity.
Defined.

(** A proxy of [{"tools": []}]: the call returns [[]]. *)
Lemma discover_empty_iff_witness :
  let H := Sample.scripted (Returned (JsProxy 1)) (Returned None_)
             (Returned (Dict {[ KStr "tools" := List [] ]})) in
  result (run H (discover_mcp_tools None) 0%nat) = Returned (List []).
Proof.
  intros H.
  apply (proj2 (discover_empty_iff H None 0%nat)).
  exists (JsProxy 1), 1%nat. split; [reflexivity|].
  right. exists (Dict {[ KStr "tools" := List [] ]}). split; [reflexivity|].
  right. exists {[ KStr "tools" := List [] ]}. split; [reflexivity|].
  right. vm_compute. reflexivity.
Defined.

(** [{"tools": ["a", "b"]}] and the same with ["version": 2] added. *)
Lemma discover_ignores_other_keys_witness :
  let d : gmap key value := {[ KStr "tools" := List [Str "a"; Str "b"] ]} in
  let H1 := Sample.scripted (Returned (JsProxy 1)) (Returned None_)
                            (Returned (Dict d)) in
  let H2 := Sample.scripted (Returned (JsProxy 2)) (Returned None_)
              (Returned (Dict (<[KStr "version" := Int 2]> d))) in
  result (run H1 (discover_mcp_tools None) 0%nat) =
  result (run H2 (discover_mcp_tools (Some (Int 9))) 4%nat).
Proof.
  intros d H1 H2.
  apply (discover_ignores_other_keys H1 H2 None (Some (Int 9))
           0%nat 1%nat 4%nat 5%nat (JsProxy 1) (JsProxy 2)
           d (KStr "version") (Int 2)).
  - discriminate.
  - reflexivity.
  - reflexivity.
  - reflexivity.
  - reflexivity.
Defined.
